(** * b0: the logical cpu count stub ([src/b00/std/b00_stubs_cpu.c])

    The C file defines one OCaml primitive, [ocaml_b00_cpu_logical_count],
    in three variants selected by the preprocessor.  The development embeds
    the three function bodies, the preprocessor selection, the C integer
    conversions they go through and the OCaml runtime's encoding of
    immediate integers, and states the properties of the primitive over
    that embedding.

    The headers the file includes are not part of it: [CAMLprim] (spelled
    [CAMLPrim] in two of the variants) is a linkage annotation without
    effect on the value computed, and the macros of [caml/mlvalues.h] are
    embedded from the OCaml runtime's header. *)

From Stdlib Require Import ZArith Lia Bool List String.
Import ListNotations.
Local Open Scope Z_scope.

(** ** C integer types

    A value of a C integer type is the mathematical integer it denotes.
    A conversion to an unsigned type of [bits] bits reduces modulo
    [2 ^ bits]; a conversion to a signed type that cannot represent the
    value is implementation-defined, and the compilers the library is built
    with (gcc, clang, MSVC) all reduce modulo [2 ^ bits] into the signed
    range. *)

Module C.

Definition to_unsigned (bits x : Z) : Z := x mod 2 ^ bits.

Definition to_signed (bits x : Z) : Z :=
  let u := x mod 2 ^ bits in
  if u <? 2 ^ (bits - 1) then u else u - 2 ^ bits.

Definition in_unsigned_range (bits x : Z) : bool :=
  (0 <=? x) && (x <? 2 ^ bits).

Definition in_signed_range (bits x : Z) : bool :=
  (- 2 ^ (bits - 1) <=? x) && (x <? 2 ^ (bits - 1)).

(** The data models the library is compiled under: they fix the width of
    [long] and of a pointer, hence of the runtime's [intnat].  [int] has
    32 bits in all of them. *)
Inductive data_model : Set := ILP32 | LP64 | LLP64.

Definition int_bits : Z := 32.

Definition long_bits (m : data_model) : Z :=
  match m with
  | LP64 => 64
  | ILP32 | LLP64 => 32
  end.

Definition intnat_bits (m : data_model) : Z :=
  match m with
  | ILP32 => 32
  | LP64 | LLP64 => 64
  end.

(** [DWORD] is a 32-bit unsigned integer. *)
Definition DWORD_bits : Z := 32.

Definition INT_MIN : Z := - 2 ^ (int_bits - 1).
Definition INT_MAX : Z := 2 ^ (int_bits - 1) - 1.

Definition is_int (x : Z) : bool := in_signed_range int_bits x.
Definition is_long (m : data_model) (x : Z) : bool :=
  in_signed_range (long_bits m) x.
Definition is_DWORD (x : Z) : bool := in_unsigned_range DWORD_bits x.

(** [int n = e] for [e] of type [long]. *)
Definition int_of_long (x : Z) : Z := to_signed int_bits x.

(** [n < k] for [n] of type [int] and [k] of type [int]. *)
Definition int_lt (n k : Z) : bool := n <? k.

(** [n < k] for [n] of type [DWORD] and [k] of type [int]: the usual
    arithmetic conversions turn [k] into a [DWORD] and the comparison is
    unsigned. *)
Definition DWORD_lt_int (n k : Z) : bool := n <? to_unsigned DWORD_bits k.

End C.

(** ** OCaml values ([caml/mlvalues.h])

    A [value] is an [intnat].  An OCaml [int] is an immediate value: the
    integer shifted left by one bit, with the low bit set. *)

Module Caml.
Import C.

Definition value : Set := Z.

(** [#define Val_long(x) ((intnat) (((uintnat)(x) << 1)) + 1)] *)
Definition Val_long (m : data_model) (x : Z) : value :=
  to_signed (intnat_bits m)
    (to_unsigned (intnat_bits m)
       (Z.shiftl (to_unsigned (intnat_bits m) x) 1)) + 1.

(** [#define Long_val(x) ((x) >> 1)] *)
Definition Long_val (v : value) : Z := Z.shiftr v 1.

(** [#define Val_int(x) Val_long(x)] *)
Definition Val_int (m : data_model) (x : Z) : value := Val_long m x.

(** [#define Val_unit Val_int(0)] *)
Definition Val_unit (m : data_model) : value := Val_int m 0.

(** [#define Max_long (((intnat)1 << (8 * sizeof(value) - 2)) - 1)] *)
Definition Max_long (m : data_model) : Z :=
  Z.shiftl 1 (intnat_bits m - 2) - 1.

(** [#define Min_long (-((intnat)1 << (8 * sizeof(value) - 2)))] *)
Definition Min_long (m : data_model) : Z :=
  - Z.shiftl 1 (intnat_bits m - 2).

(** The integers an OCaml [int] of the platform holds. *)
Definition is_ocaml_int (m : data_model) (x : Z) : bool :=
  (Min_long m <=? x) && (x <=? Max_long m).

(** [#define Is_long(x) (((x) & 1) != 0)] *)
Definition Is_long (v : value) : bool := negb (Z.land v 1 =? 0).

(** A well-formed immediate: an [intnat] with the low bit set. *)
Definition is_immediate (m : data_model) (v : value) : bool :=
  Is_long v && in_signed_range (intnat_bits m) v.

End Caml.

(** ** The operating system

    The stub's only interaction with its environment is one call of an
    operating system query.  A program is a tree of such calls. *)

Inductive sysconf_name : Set := _SC_NPROCESSORS_ONLN.

(** The field of [SYSTEM_INFO] the stub reads. *)
Record SYSTEM_INFO : Set := { dwNumberOfProcessors : Z }.

Inductive os_call : Type -> Type :=
| sysconf (name : sysconf_name) : os_call Z
| GetSystemInfo : os_call SYSTEM_INFO.

Inductive prog (A : Type) : Type :=
| Ret (a : A)
| Call (X : Type) (q : os_call X) (k : X -> prog A).

Arguments Ret {A} a.
Arguments Call {A X} q k.

(** A call, whatever the type of its answer. *)
Definition some_call : Type := {X : Type & os_call X}.

Definition a_call {X : Type} (q : os_call X) : some_call := existT _ X q.

Section Run.

Context {world : Type}.

(** What a call answers in a state of the world, and the state it leaves. *)
Variable os : forall X, os_call X -> world -> X * world.

Fixpoint run {A : Type} (p : prog A) (w : world) : A * world :=
  match p with
  | Ret a => (a, w)
  | Call q k => let (x, w') := os _ q w in run (k x) w'
  end.

(** The calls a program makes, in order. *)
Fixpoint calls {A : Type} (p : prog A) (w : world) : list some_call :=
  match p with
  | Ret _ => []
  | Call q k => let (x, w') := os _ q w in a_call q :: calls (k x) w'
  end.

End Run.

(** ** The three variants of the stub *)

Import C Caml.

(** [#if defined(OCAML_B00_DARWIN) || defined(OCAML_B00_POSIX)] *)
Module Posix.

Definition ocaml_b00_cpu_logical_count (m : data_model) (unit : value)
  : prog value :=
  Call (sysconf _SC_NPROCESSORS_ONLN) (fun r =>
    let n := int_of_long r in
    let n := if int_lt n 0 then 1 else n in
    Ret (Val_int m n)).

End Posix.

(** [#elif defined(OCAML_B00_WINDOWS)] *)
Module Windows.

Definition ocaml_b00_cpu_logical_count (m : data_model) (unit : value)
  : prog value :=
  Call GetSystemInfo (fun i =>
    let n := dwNumberOfProcessors i in
    let n := if DWORD_lt_int n 0 then 1 else n in
    Ret (Val_int m n)).

End Windows.

(** [#else] *)
Module Unsupported.

Definition warning : string :=
  "OCaml B00 library: unsupported platform, cpu count will always be 1".

Definition ocaml_b00_cpu_logical_count (m : data_model) (unit : value)
  : prog value :=
  Ret (Val_int m 1).

End Unsupported.

(** ** The preprocessor selection *)

(** The macros the build defines. *)
Record defines : Set := {
  OCAML_B00_DARWIN : bool;
  OCAML_B00_POSIX : bool;
  OCAML_B00_WINDOWS : bool
}.

(** What compiling the file produces: the diagnostics of the build and the
    primitive. *)
Record translation_unit : Type := {
  warnings : list string;
  primitive : data_model -> value -> prog value
}.

Definition b00_stubs_cpu (d : defines) : translation_unit :=
  if OCAML_B00_DARWIN d || OCAML_B00_POSIX d then
    {| warnings := []; primitive := Posix.ocaml_b00_cpu_logical_count |}
  else if OCAML_B00_WINDOWS d then
    {| warnings := []; primitive := Windows.ocaml_b00_cpu_logical_count |}
  else
    {| warnings := [Unsupported.warning];
       primitive := Unsupported.ocaml_b00_cpu_logical_count |}.

Definition ocaml_b00_cpu_logical_count (d : defines)
  : data_model -> value -> prog value :=
  primitive (b00_stubs_cpu d).

(** A platform is supported when the build selects one of the two variants
    that query the operating system. *)
Definition supported (d : defines) : bool :=
  OCAML_B00_DARWIN d || OCAML_B00_POSIX d || OCAML_B00_WINDOWS d.

(** ** The primitive as its OCaml caller sees it *)

Section Caller.

Context {world : Type}.
Variable os : forall X, os_call X -> world -> X * world.

(** The value a call of the primitive returns in state [w]. *)
Definition returned (d : defines) (m : data_model) (w : world) : value :=
  fst (run os (ocaml_b00_cpu_logical_count d m (Val_unit m)) w).

(** The OCaml [int] that value is. *)
Definition logical_cpu_count (d : defines) (m : data_model) (w : world)
  : Z :=
  Long_val (returned d m w).

(** The state a call of the primitive leaves. *)
Definition state_after (d : defines) (m : data_model) (w : world)
  : world :=
  snd (run os (ocaml_b00_cpu_logical_count d m (Val_unit m)) w).

(** The count the operating system reports in state [w] to the query of
    the variant the build selects; the unsupported variant has none. *)
Definition os_reported (d : defines) (w : world) : option Z :=
  if OCAML_B00_DARWIN d || OCAML_B00_POSIX d then
    Some (fst (os _ (sysconf _SC_NPROCESSORS_ONLN) w))
  else if OCAML_B00_WINDOWS d then
    Some (dwNumberOfProcessors (fst (os _ GetSystemInfo w)))
  else None.

(** The queries only read the state. *)
Definition read_only : Prop :=
  forall X (q : os_call X) (w : world), snd (os X q w) = w.

End Caller.

(** [r] is a value of the C type of the selected query's result: [long]
    for [sysconf], [DWORD] for the field of [SYSTEM_INFO]. *)
Definition reportable (d : defines) (m : data_model) (r : Z) : bool :=
  if OCAML_B00_DARWIN d || OCAML_B00_POSIX d then is_long m r
  else is_DWORD r.

(** [r] is a value of the C type of the local variable [n]: [int] in the
    POSIX variant, [DWORD] in the Windows one. *)
Definition fits_n (d : defines) (r : Z) : bool :=
  if OCAML_B00_DARWIN d || OCAML_B00_POSIX d then is_int r
  else is_DWORD r.

(** The Windows variant with the defensive check removed: what the
    variant is compared with, not a part of the C file. *)
Definition windows_without_check (m : data_model) (unit : value)
  : prog value :=
  Call GetSystemInfo (fun i =>
    let n := dwNumberOfProcessors i in
    Ret (Val_int m n)).

(** ** A concrete machine

    The state holds what the two queries report; the queries read it. *)

Record machine : Set := {
  nprocessors_onln : Z;
  system_info : SYSTEM_INFO
}.

Definition machine_os (X : Type) (q : os_call X) (w : machine)
  : X * machine :=
  match q in os_call T return T * machine with
  | sysconf _SC_NPROCESSORS_ONLN => (nprocessors_onln w, w)
  | GetSystemInfo => (system_info w, w)
  end.

Definition machine_with (count : Z) : machine :=
  {| nprocessors_onln := count;
     system_info := {| dwNumberOfProcessors := count |} |}.

Definition posix_build : defines :=
  {| OCAML_B00_DARWIN := false; OCAML_B00_POSIX := true;
     OCAML_B00_WINDOWS := false |}.

Definition darwin_build : defines :=
  {| OCAML_B00_DARWIN := true; OCAML_B00_POSIX := false;
     OCAML_B00_WINDOWS := false |}.

Definition windows_build : defines :=
  {| OCAML_B00_DARWIN := false; OCAML_B00_POSIX := false;
     OCAML_B00_WINDOWS := true |}.

Definition unsupported_build : defines :=
  {| OCAML_B00_DARWIN := false; OCAML_B00_POSIX := false;
     OCAML_B00_WINDOWS := false |}.

(** ** A process whose query fails

    POSIX lets [sysconf] fail: it then answers -1 and sets [errno].  The
    state of such a process holds [errno] beside the machine. *)

Record process : Set := {
  host : machine;
  errno : Z
}.

Definition EINVAL : Z := 22.

Definition failing_os (X : Type) (q : os_call X) (p : process)
  : X * process :=
  match q in os_call T return T * process with
  | sysconf _SC_NPROCESSORS_ONLN =>
      (-1, {| host := host p; errno := EINVAL |})
  | GetSystemInfo => (system_info (host p), p)
  end.

(** * Properties *)

(** ** Ranges and conversions *)

(** Turns the boolean range tests of the context and of the goal into
    inequalities over the numerals of the data model at hand. *)
Ltac ranges :=
  unfold reportable, fits_n, is_long, is_int, is_DWORD, is_ocaml_int,
    in_signed_range, in_unsigned_range, Max_long, Min_long, INT_MIN, INT_MAX,
    int_bits, DWORD_bits in *;
  cbn [long_bits intnat_bits] in *;
  repeat match goal with
    | H : _ && _ = true |- _ => apply andb_true_iff in H; destruct H
    | H : (_ <=? _) = true |- _ => apply Z.leb_le in H
    | H : (_ <? _) = true |- _ => apply Z.ltb_lt in H
    | H : (_ <=? _) = false |- _ => apply Z.leb_gt in H
    | H : (_ <? _) = false |- _ => apply Z.ltb_ge in H
    end;
  change (2 ^ (32 - 1)) with 2147483648 in *;
  change (2 ^ (64 - 1)) with 9223372036854775808 in *;
  change (2 ^ 32) with 4294967296 in *;
  change (2 ^ 64) with 18446744073709551616 in *;
  change (Z.shiftl 1 (32 - 2)) with 1073741824 in *;
  change (Z.shiftl 1 (64 - 2)) with 4611686018427387904 in *.

Lemma to_signed_small bits x :
  0 < bits -> in_signed_range bits x = true -> to_signed bits x = x.
Proof.
  intros Hb Hx. unfold in_signed_range in Hx.
  apply andb_true_iff in Hx as [Hlo Hhi].
  apply Z.leb_le in Hlo. apply Z.ltb_lt in Hhi.
  unfold to_signed.
  assert (Hp : 2 ^ bits = 2 * 2 ^ (bits - 1)).
  { rewrite <- Z.pow_succ_r by lia. f_equal. lia. }
  assert (0 < 2 ^ (bits - 1)) by (apply Z.pow_pos_nonneg; lia).
  destruct (Z.ltb_spec (x mod 2 ^ bits) (2 ^ (bits - 1))) as [Hlt | Hge].
  - destruct (Z_lt_le_dec x 0) as [Hneg | Hpos].
    + rewrite <- (Z.mod_add x 1) in Hlt by lia.
      rewrite Z.mod_small in Hlt by lia. lia.
    + apply Z.mod_small. lia.
  - destruct (Z_lt_le_dec x 0) as [Hneg | Hpos].
    + rewrite <- (Z.mod_add x 1) by lia.
      rewrite Z.mod_small by lia. lia.
    + rewrite Z.mod_small in Hge by lia. lia.
Qed.

Lemma is_int_bounds x : is_int x = true <-> INT_MIN <= x <= INT_MAX.
Proof.
  unfold is_int, in_signed_range, INT_MIN, INT_MAX.
  rewrite andb_true_iff, Z.leb_le, Z.ltb_lt. lia.
Qed.

Lemma int_of_long_small x : is_int x = true -> int_of_long x = x.
Proof.
  intros Hx. apply to_signed_small; [reflexivity | exact Hx].
Qed.

Lemma to_signed_in_range bits x :
  0 < bits -> in_signed_range bits (to_signed bits x) = true.
Proof.
  intros Hb. unfold in_signed_range, to_signed.
  assert (Hp : 2 ^ bits = 2 * 2 ^ (bits - 1)).
  { rewrite <- Z.pow_succ_r by lia. f_equal. lia. }
  assert (0 < 2 ^ (bits - 1)) by (apply Z.pow_pos_nonneg; lia).
  pose proof (Z.mod_pos_bound x (2 ^ bits) ltac:(lia)) as Hm.
  apply andb_true_iff.
  destruct (Z.ltb_spec (x mod 2 ^ bits) (2 ^ (bits - 1)));
    split; first [apply Z.leb_le | apply Z.ltb_lt]; lia.
Qed.

Lemma int_of_long_is_int x : is_int (int_of_long x) = true.
Proof. apply to_signed_in_range. reflexivity. Qed.

(** The guard of the Windows variant compares two unsigned numbers. *)
Lemma DWORD_lt_int_0 v : is_DWORD v = true -> DWORD_lt_int v 0 = false.
Proof.
  intros Hv. unfold DWORD_lt_int, to_unsigned. ranges.
  rewrite Z.mod_0_l by lia. apply Z.ltb_ge. lia.
Qed.

(** ** Immediate integers *)

(** [Val_long] in closed form: the argument reduced into [intnat_bits - 1]
    bits, doubled, plus one. *)
Lemma Val_long_eq m x :
  Val_long m x = 2 * to_signed (intnat_bits m - 1) x + 1.
Proof.
  unfold Val_long, to_signed, to_unsigned.
  rewrite Z.shiftl_mul_pow2 by lia.
  destruct m; cbn [intnat_bits];
    change (2 ^ 1) with 2;
    change (2 ^ (32 - 1 - 1)) with 1073741824;
    change (2 ^ (32 - 1)) with 2147483648;
    change (2 ^ 32) with 4294967296;
    change (2 ^ (64 - 1 - 1)) with 4611686018427387904;
    change (2 ^ (64 - 1)) with 9223372036854775808;
    change (2 ^ 64) with 18446744073709551616;
    repeat match goal with
      | |- context [if ?a <? ?b then _ else _] =>
          destruct (Z.ltb_spec a b)
      end;
    Z.div_mod_to_equations; lia.
Qed.

Lemma Long_val_Val_long m x :
  Long_val (Val_long m x) = to_signed (intnat_bits m - 1) x.
Proof.
  rewrite Val_long_eq. unfold Long_val.
  rewrite Z.shiftr_div_pow2 by lia. change (2 ^ 1) with 2.
  Z.div_mod_to_equations. lia.
Qed.

(** An integer the OCaml [int] holds survives the encoding. *)
Lemma Long_val_Val_int m x :
  is_ocaml_int m x = true -> Long_val (Val_int m x) = x.
Proof.
  intros Hx. unfold Val_int. rewrite Long_val_Val_long.
  apply to_signed_small; [destruct m; reflexivity |].
  destruct m; ranges; unfold in_signed_range; cbn;
    apply andb_true_iff; split;
    first [apply Z.leb_le | apply Z.ltb_lt]; lia.
Qed.

(** Whatever its argument, [Val_long] makes a well-formed immediate. *)
Lemma Val_long_immediate m x : is_immediate m (Val_long m x) = true.
Proof.
  pose proof (to_signed_in_range (intnat_bits m - 1) x
                ltac:(destruct m; reflexivity)) as Hr.
  rewrite Val_long_eq. set (k := to_signed (intnat_bits m - 1) x) in *.
  unfold is_immediate, Is_long. apply andb_true_iff. split.
  - change 1 with (Z.ones 1) at 2. rewrite Z.land_ones by lia.
    change (2 ^ 1) with 2.
    replace ((2 * k + 1) mod 2) with 1 by (Z.div_mod_to_equations; lia).
    reflexivity.
  - destruct m; cbn [intnat_bits] in *; unfold in_signed_range in *;
      apply andb_true_iff in Hr as [Hlo Hhi];
      apply Z.leb_le in Hlo; apply Z.ltb_lt in Hhi;
      apply andb_true_iff; split;
      first [apply Z.leb_le | apply Z.ltb_lt];
      change (2 ^ (32 - 1 - 1)) with 1073741824 in *;
      change (2 ^ (32 - 1)) with 2147483648 in *;
      change (2 ^ (64 - 1 - 1)) with 4611686018427387904 in *;
      change (2 ^ (64 - 1)) with 9223372036854775808 in *; lia.
Qed.

(** ** What each variant returns *)

Section Primitive.

Context {world : Type}.
Variable os : forall X, os_call X -> world -> X * world.

Lemma run_posix m u w :
  run os (Posix.ocaml_b00_cpu_logical_count m u) w =
    (Val_int m
       (let n := int_of_long (fst (os _ (sysconf _SC_NPROCESSORS_ONLN) w)) in
        if int_lt n 0 then 1 else n),
     snd (os _ (sysconf _SC_NPROCESSORS_ONLN) w)).
Proof.
  cbn [run Posix.ocaml_b00_cpu_logical_count].
  destruct (os Z (sysconf _SC_NPROCESSORS_ONLN) w) as [r w']. reflexivity.
Qed.

Lemma run_windows m u w :
  run os (Windows.ocaml_b00_cpu_logical_count m u) w =
    (Val_int m
       (let n := dwNumberOfProcessors (fst (os _ GetSystemInfo w)) in
        if DWORD_lt_int n 0 then 1 else n),
     snd (os _ GetSystemInfo w)).
Proof.
  cbn [run Windows.ocaml_b00_cpu_logical_count].
  destruct (os SYSTEM_INFO GetSystemInfo w) as [i w']. reflexivity.
Qed.

Lemma run_windows_without_check m u w :
  run os (windows_without_check m u) w =
    (Val_int m (dwNumberOfProcessors (fst (os _ GetSystemInfo w))),
     snd (os _ GetSystemInfo w)).
Proof.
  cbn [run windows_without_check].
  destruct (os SYSTEM_INFO GetSystemInfo w) as [i w']. reflexivity.
Qed.

(** The preprocessor selects exactly one variant. *)
Lemma variant_cases d :
  (OCAML_B00_DARWIN d || OCAML_B00_POSIX d = true /\
   ocaml_b00_cpu_logical_count d = Posix.ocaml_b00_cpu_logical_count /\
   warnings (b00_stubs_cpu d) = []) \/
  (OCAML_B00_DARWIN d || OCAML_B00_POSIX d = false /\
   OCAML_B00_WINDOWS d = true /\
   ocaml_b00_cpu_logical_count d = Windows.ocaml_b00_cpu_logical_count /\
   warnings (b00_stubs_cpu d) = []) \/
  (supported d = false /\
   ocaml_b00_cpu_logical_count d = Unsupported.ocaml_b00_cpu_logical_count /\
   warnings (b00_stubs_cpu d) = [Unsupported.warning]).
Proof.
  unfold ocaml_b00_cpu_logical_count, b00_stubs_cpu, supported.
  destruct (OCAML_B00_DARWIN d || OCAML_B00_POSIX d);
    destruct (OCAML_B00_WINDOWS d); cbn; auto 10.
Qed.

Lemma supported_cases d :
  supported d = true ->
  OCAML_B00_DARWIN d || OCAML_B00_POSIX d = true \/
  (OCAML_B00_DARWIN d || OCAML_B00_POSIX d = false /\
   OCAML_B00_WINDOWS d = true).
Proof.
  unfold supported.
  destruct (OCAML_B00_DARWIN d || OCAML_B00_POSIX d);
    destruct (OCAML_B00_WINDOWS d); cbn; auto; discriminate.
Qed.

Lemma returned_posix d m w :
  OCAML_B00_DARWIN d || OCAML_B00_POSIX d = true ->
  returned os d m w =
    Val_int m
      (let n := int_of_long (fst (os _ (sysconf _SC_NPROCESSORS_ONLN) w)) in
       if int_lt n 0 then 1 else n).
Proof.
  intros Hd. unfold returned, ocaml_b00_cpu_logical_count, b00_stubs_cpu.
  rewrite Hd. cbn [primitive]. rewrite run_posix. reflexivity.
Qed.

Lemma returned_windows d m w :
  OCAML_B00_DARWIN d || OCAML_B00_POSIX d = false ->
  OCAML_B00_WINDOWS d = true ->
  returned os d m w =
    Val_int m
      (let n := dwNumberOfProcessors (fst (os _ GetSystemInfo w)) in
       if DWORD_lt_int n 0 then 1 else n).
Proof.
  intros Hd Hw. unfold returned, ocaml_b00_cpu_logical_count, b00_stubs_cpu.
  rewrite Hd, Hw. cbn [primitive]. rewrite run_windows. reflexivity.
Qed.

Lemma unsupported_program d m u :
  supported d = false ->
  ocaml_b00_cpu_logical_count d m u = Ret (Val_int m 1).
Proof.
  intros Hd. destruct (variant_cases d) as [[H _] | [(H & Hw & _) | (_ & H & _)]].
  - unfold supported in Hd. rewrite H in Hd. discriminate.
  - unfold supported in Hd. rewrite Hw, orb_true_r in Hd. discriminate.
  - rewrite H. reflexivity.
Qed.

(** A reported count that the local variable [n] holds is returned as it
    is, unless it is negative. *)
Lemma returned_of_report d m w r :
  supported d = true ->
  os_reported os d w = Some r ->
  fits_n d r = true ->
  returned os d m w = Val_int m (if r <? 0 then 1 else r).
Proof.
  intros Hs Hr Hf. unfold os_reported, fits_n in *.
  destruct (supported_cases d Hs) as [Hp | [Hp Hw]].
  - rewrite Hp in *. injection Hr as Hr.
    rewrite (returned_posix d m w Hp), Hr. cbn zeta.
    rewrite (int_of_long_small r Hf). reflexivity.
  - rewrite Hp, ?Hw in *. injection Hr as Hr.
    rewrite (returned_windows d m w Hp Hw), Hr. cbn zeta.
    rewrite (DWORD_lt_int_0 r Hf).
    ranges. destruct (Z.ltb_spec r 0); [lia | reflexivity].
Qed.

Lemma Long_val_Val_int_1 m : Long_val (Val_int m 1) = 1.
Proof. destruct m; reflexivity. Qed.

(** The primitive returns a well-formed immediate in every state. *)
Lemma returned_immediate d m w : is_immediate m (returned os d m w) = true.
Proof.
  unfold returned.
  destruct (variant_cases d) as [(_ & H & _) | [(_ & _ & H & _) | (_ & H & _)]];
    rewrite H.
  - rewrite run_posix. apply Val_long_immediate.
  - rewrite run_windows. apply Val_long_immediate.
  - apply Val_long_immediate.
Qed.

(** The same, for the OCaml [int] the caller gets. *)
Lemma count_of_report d m w r :
  supported d = true ->
  os_reported os d w = Some r ->
  fits_n d r = true ->
  r <= Max_long m ->
  logical_cpu_count os d m w = if r <? 0 then 1 else r.
Proof.
  intros Hs Hr Hf Hmax. unfold logical_cpu_count.
  rewrite (returned_of_report d m w r Hs Hr Hf).
  destruct (Z.ltb_spec r 0) as [Hneg | Hpos].
  - apply Long_val_Val_int_1.
  - apply Long_val_Val_int.
    destruct m; ranges; apply andb_true_iff; split; apply Z.leb_le; lia.
Qed.

Lemma unsupported_count d m w :
  supported d = false -> logical_cpu_count os d m w = 1.
Proof.
  intros Hd. unfold logical_cpu_count, returned.
  rewrite (unsupported_program d m (Val_unit m) Hd). cbn [run fst].
  apply Long_val_Val_int_1.
Qed.

(** Counts below [2 ^ 30] fit every type they go through. *)
Lemma small_count_fits d m r :
  0 <= r < 2 ^ 30 -> fits_n d r = true /\ r <= Max_long m.
Proof.
  change (2 ^ 30) with 1073741824. intros Hr. split.
  - unfold fits_n.
    destruct (OCAML_B00_DARWIN d || OCAML_B00_POSIX d); ranges;
      apply andb_true_iff; split;
      first [apply Z.leb_le | apply Z.ltb_lt]; lia.
  - destruct m; ranges; lia.
Qed.

(** The OCaml [int] a value denotes is within [Min_long] and [Max_long]. *)
Lemma Long_val_Val_int_range m x :
  is_ocaml_int m (Long_val (Val_int m x)) = true.
Proof.
  unfold Val_int. rewrite Long_val_Val_long.
  pose proof (to_signed_in_range (intnat_bits m - 1) x
                ltac:(destruct m; reflexivity)) as Hr.
  set (k := to_signed (intnat_bits m - 1) x) in *.
  destruct m; cbn [intnat_bits] in *; unfold in_signed_range in Hr;
    change (2 ^ (32 - 1 - 1)) with 1073741824 in *;
    change (2 ^ (64 - 1 - 1)) with 4611686018427387904 in *;
    ranges; apply andb_true_iff; split; apply Z.leb_le; lia.
Qed.

Lemma logical_cpu_count_is_ocaml_int d m w :
  is_ocaml_int m (logical_cpu_count os d m w) = true.
Proof.
  unfold logical_cpu_count, returned.
  destruct (variant_cases d) as [(_ & H & _) | [(_ & _ & H & _) | (_ & H & _)]];
    rewrite H.
  - rewrite run_posix. apply Long_val_Val_int_range.
  - rewrite run_windows. apply Long_val_Val_int_range.
  - apply Long_val_Val_int_range.
Qed.

(** A value of the type of [n] is a value of the type of the query's
    result. *)
Lemma fits_n_reportable d m r : fits_n d r = true -> reportable d m r = true.
Proof.
  unfold fits_n, reportable.
  destruct (OCAML_B00_DARWIN d || OCAML_B00_POSIX d); [| auto].
  intros Hr. destruct m; ranges; apply andb_true_iff; split;
    first [apply Z.leb_le | apply Z.ltb_lt]; lia.
Qed.

(** The bounds under which a positive count is returned exactly are the
    only ones: a positive count the primitive returns exactly is a value
    of the type of [n] and is at most [Max_long]. *)
Lemma positive_exact_only_if d m w N :
  supported d = true ->
  os_reported os d w = Some N ->
  0 <= N ->
  reportable d m N = true ->
  logical_cpu_count os d m w = N ->
  fits_n d N = true /\ N <= Max_long m.
Proof.
  intros Hs Hr Hpos Hrep Heq.
  pose proof (logical_cpu_count_is_ocaml_int d m w) as Hrange.
  rewrite Heq in Hrange. split.
  - unfold os_reported, reportable, fits_n, logical_cpu_count in *.
    destruct (supported_cases d Hs) as [Hp | [Hp Hw]];
      rewrite Hp in *; [| exact Hrep].
    injection Hr as Hr.
    destruct m; try exact Hrep.
    rewrite (returned_posix d LP64 w Hp), Hr in Heq. cbn zeta in Heq.
    pose proof (int_of_long_is_int N) as Hn.
    set (n := int_of_long N) in *. unfold int_lt in Heq.
    rewrite Long_val_Val_int in Heq.
    + destruct (Z.ltb_spec n 0); rewrite <- Heq; [reflexivity | exact Hn].
    + destruct (Z.ltb_spec n 0); [reflexivity |].
      ranges. apply andb_true_iff; split; apply Z.leb_le; lia.
  - clear - Hrange. destruct m; ranges; lia.
Qed.

(** Only the unsupported build warns. *)
Lemma supported_no_warning d :
  supported d = true -> warnings (b00_stubs_cpu d) = [].
Proof.
  intros Hs.
  destruct (variant_cases d) as [(_ & _ & H) | [(_ & _ & _ & H) | (Hu & _)]];
    [exact H | exact H | congruence].
Qed.

(** The count in closed form.  [n] is the value stored in the local
    variable: the answer converted to [int] in the POSIX variant, the
    field in the Windows one. *)
Lemma count_closed_form d m w r :
  supported d = true ->
  os_reported os d w = Some r ->
  reportable d m r = true ->
  let n := if OCAML_B00_DARWIN d || OCAML_B00_POSIX d
           then int_of_long r else r in
  - 2 ^ 31 <= n < 2 ^ 32 /\
  returned os d m w = Val_int m (if n <? 0 then 1 else n) /\
  logical_cpu_count os d m w =
    to_signed (intnat_bits m - 1) (if n <? 0 then 1 else n).
Proof.
  intros Hs Hr Hrep. cbn zeta.
  unfold logical_cpu_count, os_reported, reportable in *.
  change (2 ^ 31) with 2147483648. change (2 ^ 32) with 4294967296.
  destruct (supported_cases d Hs) as [Hp | [Hp Hw]].
  - rewrite Hp in *. injection Hr as Hr.
    rewrite (returned_posix d m w Hp), Hr. cbn zeta.
    pose proof (int_of_long_is_int r) as Hn. unfold int_lt, Val_int.
    rewrite Long_val_Val_long. ranges. repeat split; lia.
  - rewrite Hp, ?Hw in *. injection Hr as Hr.
    rewrite (returned_windows d m w Hp Hw), Hr. cbn zeta.
    rewrite (DWORD_lt_int_0 r Hrep). unfold Val_int.
    rewrite Long_val_Val_long. ranges.
    destruct (Z.ltb_spec r 0); [lia |]. repeat split; lia.
Qed.

(** A negative answer comes from [sysconf]: a [DWORD] is not negative. *)
Lemma negative_report_posix d m w r :
  os_reported os d w = Some r ->
  reportable d m r = true ->
  r < 0 ->
  OCAML_B00_DARWIN d || OCAML_B00_POSIX d = true /\ supported d = true.
Proof.
  unfold os_reported, reportable, supported. intros Hr Hrep Hneg.
  destruct (OCAML_B00_DARWIN d || OCAML_B00_POSIX d); [auto |].
  ranges. lia.
Qed.

(** The state a call leaves is the state its one query leaves. *)
Lemma state_after_query d m w :
  state_after os d m w =
    (if OCAML_B00_DARWIN d || OCAML_B00_POSIX d then
       snd (os _ (sysconf _SC_NPROCESSORS_ONLN) w)
     else if OCAML_B00_WINDOWS d then snd (os _ GetSystemInfo w)
     else w).
Proof.
  unfold state_after, ocaml_b00_cpu_logical_count, b00_stubs_cpu.
  destruct (OCAML_B00_DARWIN d || OCAML_B00_POSIX d);
    [| destruct (OCAML_B00_WINDOWS d)]; cbn [primitive].
  - rewrite run_posix. reflexivity.
  - rewrite run_windows. reflexivity.
  - reflexivity.
Qed.

Lemma calls_query d m w :
  calls os (ocaml_b00_cpu_logical_count d m (Val_unit m)) w =
    (if OCAML_B00_DARWIN d || OCAML_B00_POSIX d then
       [a_call (sysconf _SC_NPROCESSORS_ONLN)]
     else if OCAML_B00_WINDOWS d then [a_call GetSystemInfo]
     else []).
Proof.
  unfold ocaml_b00_cpu_logical_count, b00_stubs_cpu.
  destruct (OCAML_B00_DARWIN d || OCAML_B00_POSIX d);
    [| destruct (OCAML_B00_WINDOWS d)]; cbn.
  - destruct (os Z _ w). reflexivity.
  - destruct (os SYSTEM_INFO _ w). reflexivity.
  - reflexivity.
Qed.

End Primitive.

(** ** The count returned *)

Section Count.

Context {world : Type}.
Variable os : forall X, os_call X -> world -> X * world.

(** C1, as amended.  On every supported platform, for every value [r]
    of the C type of the query's result, let [n] be the value stored in
    the local variable: [r] converted to [int] in the POSIX variant, [r]
    itself in the Windows one.  The primitive returns an integer greater
    than or equal to 1 if and only if [n] is negative or [n] modulo
    [2 ^ (b - 1)] lies between 1 and [Max_long], [b] being the number of
    bits of an OCaml value; on a runtime with 64-bit values, if and only
    if [n] is not 0.  When [n] is 0, in particular when the reported count
    is 0, the primitive returns 0. *)
Theorem logical_cpu_count_at_least_one d m w r :
  supported d = true ->
  os_reported os d w = Some r ->
  reportable d m r = true ->
  let n := if OCAML_B00_DARWIN d || OCAML_B00_POSIX d
           then int_of_long r else r in
  (1 <= logical_cpu_count os d m w <->
   n < 0 \/ 1 <= n mod 2 ^ (intnat_bits m - 1) <= Max_long m) /\
  (intnat_bits m = 64 -> (1 <= logical_cpu_count os d m w <-> n <> 0)) /\
  (n = 0 -> logical_cpu_count os d m w = 0) /\
  (r = 0 -> logical_cpu_count os d m w = 0).
Proof.
  intros Hs Hr Hrep.
  destruct (count_closed_form os d m w r Hs Hr Hrep) as (Hn & _ & Hc).
  cbn zeta in *. rewrite Hc. clear Hc Hr Hs.
  set (n := if OCAML_B00_DARWIN d || OCAML_B00_POSIX d
            then int_of_long r else r) in *.
  assert (H0 : r = 0 -> n = 0).
  { intros ->. unfold n.
    destruct (OCAML_B00_DARWIN d || OCAML_B00_POSIX d); reflexivity. }
  clearbody n. clear Hrep.
  change (2 ^ 31) with 2147483648 in Hn.
  change (2 ^ 32) with 4294967296 in Hn.
  unfold to_signed, Max_long.
  destruct m; cbn [intnat_bits];
    change (2 ^ (32 - 1 - 1)) with 1073741824;
    change (2 ^ (32 - 1)) with 2147483648;
    change (Z.shiftl 1 (32 - 2)) with 1073741824;
    change (2 ^ (64 - 1 - 1)) with 4611686018427387904;
    change (2 ^ (64 - 1)) with 9223372036854775808;
    change (Z.shiftl 1 (64 - 2)) with 4611686018427387904;
    destruct (Z.ltb_spec n 0);
    repeat match goal with
      | |- context [if ?a <? ?b then _ else _] =>
          destruct (Z.ltb_spec a b)
      end;
    repeat split; intros; try discriminate;
    Z.div_mod_to_equations; lia.
Qed.

(** C2, as amended.  On every supported platform, a positive count [N]
    reported by the operating system that is a value of the C type of
    the local variable [n] and is at most [Max_long] is returned
    exactly. *)
Theorem logical_cpu_count_positive_exact d m w N :
  supported d = true ->
  os_reported os d w = Some N ->
  0 < N ->
  fits_n d N = true ->
  N <= Max_long m ->
  returned os d m w = Val_int m N /\ logical_cpu_count os d m w = N.
Proof.
  intros Hs Hr Hpos Hf Hmax.
  rewrite (count_of_report os d m w N Hs Hr Hf Hmax).
  rewrite (returned_of_report os d m w N Hs Hr Hf).
  destruct (Z.ltb_spec N 0); [lia | auto].
Qed.

(** C3, as amended.  For every negative value [r] the operating system
    reports (a [long] of the POSIX variant: the [DWORD] of the Windows one
    is never negative), the primitive returns a non-negative integer,
    never the negative value; it returns exactly 1 if and only if [r]
    converted to [int] is negative or equal to 1, in particular for every
    negative [r] of type [int].  On every build, supported or not, and in
    every state, the primitive returns a well-formed immediate integer. *)
Theorem logical_cpu_count_negative_one d m w :
  (forall r,
     os_reported os d w = Some r ->
     reportable d m r = true ->
     r < 0 ->
     0 <= logical_cpu_count os d m w /\
     logical_cpu_count os d m w <> r /\
     (logical_cpu_count os d m w = 1 <->
      int_of_long r < 0 \/ int_of_long r = 1) /\
     (is_int r = true ->
      returned os d m w = Val_int m 1 /\
      logical_cpu_count os d m w = 1)) /\
  is_immediate m (returned os d m w) = true /\
  is_ocaml_int m (logical_cpu_count os d m w) = true.
Proof.
  split; [| split;
            [apply returned_immediate
            | apply logical_cpu_count_is_ocaml_int]].
  intros r Hr Hrep Hneg.
  destruct (negative_report_posix os d m w r Hr Hrep Hneg) as [Hp Hs].
  destruct (count_closed_form os d m w r Hs Hr Hrep) as (_ & Hv & Hc).
  rewrite Hp in Hv, Hc. cbn zeta in Hv, Hc. rewrite Hv, Hc. clear Hv Hc.
  pose proof (int_of_long_is_int r) as Hn.
  assert (Hsmall : is_int r = true -> int_of_long r = r)
    by apply int_of_long_small.
  assert (Hlong : long_bits m = 32 -> is_int r = true).
  { intros Hm. unfold reportable, is_long in Hrep.
    rewrite Hp, Hm in Hrep. exact Hrep. }
  set (n := int_of_long r) in *. clearbody n.
  assert (Hone : to_signed (intnat_bits m - 1) 1 = 1)
    by (destruct m; reflexivity).
  destruct (Z.ltb_spec n 0) as [Hlt | Hge].
  - rewrite Hone. repeat split; auto; lia.
  - assert (Hm : m = LP64).
    { destruct m; [| reflexivity |];
        specialize (Hsmall (Hlong eq_refl)); lia. }
    subst m. ranges.
    assert (Hid : to_signed (64 - 1) n = n).
    { apply to_signed_small; [lia |]. unfold in_signed_range.
      change (2 ^ (64 - 1 - 1)) with 4611686018427387904.
      apply andb_true_iff; split;
        first [apply Z.leb_le | apply Z.ltb_lt]; lia. }
    rewrite Hid. split; [lia |]. split; [lia |]. split.
    + split; intros; lia.
    + intros Hint. specialize (Hsmall Hint). lia.
Qed.

(** C4.  When none of the three platform macros is defined, the build
    emits the warning, and the primitive is the constant 1: it makes no
    call of the operating system, returns 1 in every state and leaves
    the state as it is. *)
Theorem unsupported_constant_one d m w :
  supported d = false ->
  warnings (b00_stubs_cpu d) = [Unsupported.warning] /\
  ocaml_b00_cpu_logical_count d m (Val_unit m) = Ret (Val_int m 1) /\
  calls os (ocaml_b00_cpu_logical_count d m (Val_unit m)) w = [] /\
  logical_cpu_count os d m w = 1 /\
  state_after os d m w = w.
Proof.
  intros Hd. rewrite (unsupported_count os d m w Hd). unfold state_after.
  rewrite (unsupported_program d m (Val_unit m) Hd). cbn [run calls snd].
  destruct (variant_cases d) as [[H _] | [(H & Hw & _) | (_ & _ & H)]].
  - unfold supported in Hd. rewrite H in Hd. discriminate.
  - unfold supported in Hd. rewrite Hw, orb_true_r in Hd. discriminate.
  - auto.
Qed.

(** C5.  In the Windows variant the test [n < 0] is false for every
    value of the [DWORD] field, so the assignment [n = 1] is never
    executed and [n] keeps the value read. *)
Theorem windows_test_never_true (i : SYSTEM_INFO) :
  is_DWORD (dwNumberOfProcessors i) = true ->
  DWORD_lt_int (dwNumberOfProcessors i) 0 = false /\
  (let n := dwNumberOfProcessors i in
   if DWORD_lt_int n 0 then 1 else n) = dwNumberOfProcessors i.
Proof.
  intros Hv. cbn zeta. rewrite (DWORD_lt_int_0 _ Hv). auto.
Qed.

(** C6.  Two calls made in states in which the operating system reports
    the same count return the same value. *)
Theorem logical_cpu_count_deterministic d m w1 w2 :
  os_reported os d w1 = os_reported os d w2 ->
  returned os d m w1 = returned os d m w2 /\
  logical_cpu_count os d m w1 = logical_cpu_count os d m w2.
Proof.
  intros Hr. unfold logical_cpu_count.
  assert (H : returned os d m w1 = returned os d m w2);
    [| rewrite H; auto].
  unfold os_reported in Hr.
  destruct (variant_cases d) as [(Hp & _) | [(Hp & Hw & _) | (Hu & _)]].
  - rewrite Hp in Hr. injection Hr as Hr.
    rewrite !(returned_posix os d m _ Hp), Hr. reflexivity.
  - rewrite Hp, Hw in Hr. injection Hr as Hr.
    rewrite !(returned_windows os d m _ Hp Hw), Hr. reflexivity.
  - unfold returned. rewrite (unsupported_program d m _ Hu). reflexivity.
Qed.

(** C7, as amended.  The primitive has no effect of its own: the state
    a call leaves is the state its one query of the operating system
    leaves ([sysconf] in the POSIX variant, [GetSystemInfo] in the Windows
    one), and the state it found on an unsupported platform, where it
    makes no query.  The call leaves the state unchanged whenever that
    query does. *)
Theorem logical_cpu_count_only_effect_is_query d m w :
  state_after os d m w =
    (if OCAML_B00_DARWIN d || OCAML_B00_POSIX d then
       snd (os _ (sysconf _SC_NPROCESSORS_ONLN) w)
     else if OCAML_B00_WINDOWS d then snd (os _ GetSystemInfo w)
     else w) /\
  calls os (ocaml_b00_cpu_logical_count d m (Val_unit m)) w =
    (if OCAML_B00_DARWIN d || OCAML_B00_POSIX d then
       [a_call (sysconf _SC_NPROCESSORS_ONLN)]
     else if OCAML_B00_WINDOWS d then [a_call GetSystemInfo]
     else []) /\
  ((if OCAML_B00_DARWIN d || OCAML_B00_POSIX d then
      snd (os _ (sysconf _SC_NPROCESSORS_ONLN) w) = w
    else if OCAML_B00_WINDOWS d then snd (os _ GetSystemInfo w) = w
    else True) ->
   state_after os d m w = w).
Proof.
  rewrite state_after_query, calls_query.
  repeat split.
  destruct (OCAML_B00_DARWIN d || OCAML_B00_POSIX d);
    [| destruct (OCAML_B00_WINDOWS d)]; auto.
Qed.

(** C8.  With 8 processors reported the primitive returns 8, with 1
    reported it returns 1, and on an unsupported platform it returns 1
    in every state. *)
Theorem logical_cpu_count_scenarios d m w :
  (supported d = true -> os_reported os d w = Some 8 ->
   logical_cpu_count os d m w = 8) /\
  (supported d = true -> os_reported os d w = Some 1 ->
   logical_cpu_count os d m w = 1) /\
  (supported d = false -> logical_cpu_count os d m w = 1).
Proof.
  repeat split.
  - intros Hs Hr.
    destruct (small_count_fits d m 8) as [Hf Hmax]; [cbn; lia |].
    rewrite (count_of_report os d m w 8 Hs Hr Hf Hmax). reflexivity.
  - intros Hs Hr.
    destruct (small_count_fits d m 1) as [Hf Hmax]; [cbn; lia |].
    rewrite (count_of_report os d m w 1 Hs Hr Hf Hmax). reflexivity.
  - apply unsupported_count.
Qed.

End Count.

(** ** The two variants that query the operating system *)

Section Variants.

Context {world : Type}.
Variable os : forall X, os_call X -> world -> X * world.

(** C9, as amended.  In the POSIX/Darwin variant, a count [r] reported
    by [sysconf] that is not negative, is a value of the C type [int] and
    is at most [Max_long] is returned as it is: the test leaves [n]
    alone, and a reported count of 0 gives 0. *)
Theorem posix_nonnegative_unchanged d m w r :
  OCAML_B00_DARWIN d || OCAML_B00_POSIX d = true ->
  fst (os _ (sysconf _SC_NPROCESSORS_ONLN) w) = r ->
  0 <= r ->
  is_int r = true ->
  r <= Max_long m ->
  (let n := int_of_long r in if int_lt n 0 then 1 else n) = r /\
  returned os d m w = Val_int m r /\
  logical_cpu_count os d m w = r.
Proof.
  intros Hd Hr Hpos Hint Hmax. unfold logical_cpu_count.
  rewrite (returned_posix os d m w Hd), Hr. cbn zeta.
  rewrite (int_of_long_small r Hint). unfold int_lt.
  destruct (Z.ltb_spec r 0) as [Hneg | _]; [lia |].
  repeat split. apply Long_val_Val_int.
  destruct m; ranges; apply andb_true_iff; split; apply Z.leb_le; lia.
Qed.

(** C10, as amended.  For every value [v] of the [DWORD] field, the
    Windows variant behaves as the variant without the test: both return
    [Val_int v] and leave the same state; the OCaml [int] returned is [v]
    whenever [v] is at most [Max_long]. *)
Theorem windows_check_removable m u w :
  is_DWORD (dwNumberOfProcessors (fst (os _ GetSystemInfo w))) = true ->
  run os (Windows.ocaml_b00_cpu_logical_count m u) w =
    run os (windows_without_check m u) w /\
  fst (run os (Windows.ocaml_b00_cpu_logical_count m u) w) =
    Val_int m (dwNumberOfProcessors (fst (os _ GetSystemInfo w))) /\
  (dwNumberOfProcessors (fst (os _ GetSystemInfo w)) <= Max_long m ->
   Long_val (fst (run os (Windows.ocaml_b00_cpu_logical_count m u) w)) =
     dwNumberOfProcessors (fst (os _ GetSystemInfo w))).
Proof.
  intros Hv. rewrite run_windows, run_windows_without_check. cbn zeta.
  rewrite (DWORD_lt_int_0 _ Hv). cbn [fst].
  repeat split. intros Hmax. apply Long_val_Val_int.
  destruct m; ranges; apply andb_true_iff; split; apply Z.leb_le; lia.
Qed.

End Variants.

(** ** Instances on the concrete machine *)

Lemma machine_os_read_only : read_only machine_os.
Proof. intros X q w. destruct q as [[] |]; reflexivity. Qed.

(** Closes a goal between closed terms by evaluation. *)
Ltac evaluate :=
  vm_compute;
  first [ reflexivity | discriminate | intros; discriminate
        | let H := fresh in intro H; apply H; reflexivity ].

(** A POSIX build on an LP64 machine that reports 0 processors returns 0. *)
Lemma posix_zero_count_returned :
  supported posix_build = true /\
  os_reported machine_os posix_build (machine_with 0) = Some 0 /\
  reportable posix_build LP64 0 = true /\
  logical_cpu_count machine_os posix_build LP64 (machine_with 0) = 0 /\
  ~ 1 <= logical_cpu_count machine_os posix_build LP64 (machine_with 0).
Proof. repeat split; evaluate. Qed.

Lemma logical_cpu_count_at_least_one_witness :
  supported posix_build = true /\
  os_reported machine_os posix_build (machine_with 4294967304)
    = Some 4294967304 /\
  reportable posix_build LP64 4294967304 = true /\
  int_of_long 4294967304 <> 0 /\
  1 <= logical_cpu_count machine_os posix_build LP64
         (machine_with 4294967304).
Proof.
  split; [evaluate |]. split; [evaluate |]. split; [evaluate |].
  split; [evaluate |].
  apply (proj1 (proj2 (logical_cpu_count_at_least_one machine_os posix_build
                         LP64 (machine_with 4294967304) 4294967304
                         eq_refl eq_refl eq_refl)));
    evaluate.
Defined.

(** A POSIX build on an LP64 machine whose [sysconf] answers
    [2 ^ 32 + 8]: the conversion to [int] keeps 8. *)
Lemma posix_large_count_truncated :
  supported posix_build = true /\
  os_reported machine_os posix_build (machine_with 4294967304)
    = Some 4294967304 /\
  0 < 4294967304 /\
  reportable posix_build LP64 4294967304 = true /\
  logical_cpu_count machine_os posix_build LP64 (machine_with 4294967304)
    = 8 /\
  logical_cpu_count machine_os posix_build LP64 (machine_with 4294967304)
    <> 4294967304.
Proof. repeat split; evaluate. Qed.

Lemma logical_cpu_count_positive_exact_witness :
  supported windows_build = true /\
  os_reported machine_os windows_build (machine_with 4294967295)
    = Some 4294967295 /\
  0 < 4294967295 /\
  fits_n windows_build 4294967295 = true /\
  4294967295 <= Max_long LLP64 /\
  returned machine_os windows_build LLP64 (machine_with 4294967295)
    = Val_int LLP64 4294967295 /\
  logical_cpu_count machine_os windows_build LLP64 (machine_with 4294967295)
    = 4294967295.
Proof.
  repeat match goal with |- _ /\ _ => split end;
    [evaluate | evaluate | evaluate | evaluate | evaluate | |];
    apply (logical_cpu_count_positive_exact machine_os windows_build LLP64
             (machine_with 4294967295) 4294967295); evaluate.
Defined.

(** A POSIX build on an LP64 machine whose [sysconf] answers
    [INT_MIN - 1]: the conversion to [int] gives [INT_MAX]. *)
Lemma posix_negative_long_not_one :
  supported posix_build = true /\
  os_reported machine_os posix_build (machine_with (-2147483649))
    = Some (-2147483649) /\
  -2147483649 < 0 /\
  reportable posix_build LP64 (-2147483649) = true /\
  logical_cpu_count machine_os posix_build LP64 (machine_with (-2147483649))
    = 2147483647 /\
  logical_cpu_count machine_os posix_build LP64 (machine_with (-2147483649))
    <> 1.
Proof. repeat split; evaluate. Qed.

Lemma logical_cpu_count_negative_one_witness :
  os_reported machine_os posix_build (machine_with (-1)) = Some (-1) /\
  reportable posix_build LP64 (-1) = true /\
  -1 < 0 /\
  is_int (-1) = true /\
  logical_cpu_count machine_os posix_build LP64 (machine_with (-1)) = 1.
Proof.
  split; [evaluate |]. split; [evaluate |]. split; [evaluate |].
  split; [evaluate |].
  apply (proj1 (logical_cpu_count_negative_one machine_os posix_build LP64
                  (machine_with (-1))) (-1));
    evaluate.
Defined.

Lemma unsupported_constant_one_witness :
  supported unsupported_build = false /\
  warnings (b00_stubs_cpu unsupported_build) = [Unsupported.warning] /\
  logical_cpu_count machine_os unsupported_build LP64 (machine_with 12) = 1.
Proof.
  split; [evaluate |].
  split;
    apply (unsupported_constant_one machine_os unsupported_build LP64
             (machine_with 12)); evaluate.
Defined.

Lemma windows_test_never_true_witness :
  is_DWORD 4294967295 = true /\ DWORD_lt_int 4294967295 0 = false.
Proof.
  split; [evaluate |].
  apply (windows_test_never_true {| dwNumberOfProcessors := 4294967295 |}).
  evaluate.
Defined.

Lemma logical_cpu_count_deterministic_witness :
  let w1 := {| nprocessors_onln := 4;
               system_info := {| dwNumberOfProcessors := 2 |} |} in
  let w2 := {| nprocessors_onln := 4;
               system_info := {| dwNumberOfProcessors := 16 |} |} in
  os_reported machine_os posix_build w1 = os_reported machine_os posix_build w2 /\
  logical_cpu_count machine_os posix_build LP64 w1 =
    logical_cpu_count machine_os posix_build LP64 w2.
Proof.
  intros w1 w2. split; [evaluate |].
  apply (logical_cpu_count_deterministic machine_os posix_build LP64 w1 w2).
  evaluate.
Defined.

(** A POSIX build in a process whose [sysconf] fails: the primitive
    returns 1 and [errno] is left set. *)
Lemma failing_query_changes_state :
  let p := {| host := machine_with 4; errno := 0 |} in
  logical_cpu_count failing_os posix_build LP64 p = 1 /\
  errno (state_after failing_os posix_build LP64 p) = EINVAL /\
  state_after failing_os posix_build LP64 p <> p.
Proof.
  cbv zeta. split; [evaluate |]. split; [evaluate |].
  intros H. apply (f_equal errno) in H. vm_compute in H. discriminate.
Qed.

Lemma logical_cpu_count_only_effect_is_query_witness :
  snd (machine_os _ GetSystemInfo (machine_with 4)) = machine_with 4 /\
  state_after machine_os windows_build LLP64 (machine_with 4) = machine_with 4.
Proof.
  split; [reflexivity |].
  apply (proj2 (proj2 (logical_cpu_count_only_effect_is_query machine_os
                         windows_build LLP64 (machine_with 4)))).
  reflexivity.
Defined.

Lemma logical_cpu_count_scenarios_witness :
  logical_cpu_count machine_os darwin_build LP64 (machine_with 8) = 8 /\
  logical_cpu_count machine_os windows_build ILP32 (machine_with 1) = 1 /\
  logical_cpu_count machine_os unsupported_build LP64 (machine_with 64) = 1.
Proof.
  split; [| split].
  - apply (proj1 (logical_cpu_count_scenarios machine_os darwin_build LP64
                    (machine_with 8))); evaluate.
  - apply (proj1 (proj2 (logical_cpu_count_scenarios machine_os windows_build
                           ILP32 (machine_with 1)))); evaluate.
  - apply (proj2 (proj2 (logical_cpu_count_scenarios machine_os
                           unsupported_build LP64 (machine_with 64))));
      evaluate.
Defined.

(** A POSIX build on an LP64 machine whose [sysconf] answers [2 ^ 31]: the
    conversion to [int] gives [INT_MIN], and the test replaces it by 1. *)
Lemma posix_nonnegative_long_replaced :
  OCAML_B00_DARWIN posix_build || OCAML_B00_POSIX posix_build = true /\
  fst (machine_os _ (sysconf _SC_NPROCESSORS_ONLN) (machine_with 2147483648))
    = 2147483648 /\
  0 <= 2147483648 /\
  is_long LP64 2147483648 = true /\
  int_lt (int_of_long 2147483648) 0 = true /\
  logical_cpu_count machine_os posix_build LP64 (machine_with 2147483648)
    = 1 /\
  logical_cpu_count machine_os posix_build LP64 (machine_with 2147483648)
    <> 2147483648.
Proof. repeat split; evaluate. Qed.

Lemma posix_nonnegative_unchanged_witness :
  OCAML_B00_DARWIN posix_build || OCAML_B00_POSIX posix_build = true /\
  fst (machine_os _ (sysconf _SC_NPROCESSORS_ONLN) (machine_with 0)) = 0 /\
  0 <= 0 /\
  is_int 0 = true /\
  0 <= Max_long ILP32 /\
  logical_cpu_count machine_os posix_build ILP32 (machine_with 0) = 0.
Proof.
  repeat match goal with |- _ /\ _ => split end;
    [evaluate | evaluate | evaluate | evaluate | evaluate |].
  apply (posix_nonnegative_unchanged machine_os posix_build ILP32
           (machine_with 0) 0); evaluate.
Defined.

(** A Windows build for a 32-bit runtime on a machine whose field holds
    [2 ^ 30]: the encoding of the immediate integer has 31 bits, and the
    OCaml [int] returned is [- 2 ^ 30]. *)
Lemma windows_32_bit_count_wraps :
  is_DWORD (dwNumberOfProcessors
              (fst (machine_os _ GetSystemInfo (machine_with 1073741824))))
    = true /\
  Long_val (fst (run machine_os
                   (Windows.ocaml_b00_cpu_logical_count ILP32 (Val_unit ILP32))
                   (machine_with 1073741824)))
    = -1073741824 /\
  Long_val (fst (run machine_os
                   (Windows.ocaml_b00_cpu_logical_count ILP32 (Val_unit ILP32))
                   (machine_with 1073741824)))
    <> 1073741824.
Proof. repeat split; evaluate. Qed.

Lemma windows_check_removable_witness :
  is_DWORD (dwNumberOfProcessors
              (fst (machine_os _ GetSystemInfo (machine_with 0)))) = true /\
  run machine_os (Windows.ocaml_b00_cpu_logical_count LLP64 (Val_unit LLP64))
    (machine_with 0) =
  run machine_os (windows_without_check LLP64 (Val_unit LLP64))
    (machine_with 0).
Proof.
  split; [evaluate |].
  apply (windows_check_removable machine_os LLP64 (Val_unit LLP64)
           (machine_with 0)).
  evaluate.
Defined.

(** ** Further properties of the primitive *)

Section Further.

Context {world : Type}.
Variable os : forall X, os_call X -> world -> X * world.

(** The conversion to [int] keeps the low 32 bits. *)
Lemma int_of_long_low_bits r1 r2 :
  r1 mod 2 ^ 32 = r2 mod 2 ^ 32 -> int_of_long r1 = int_of_long r2.
Proof.
  intros H. unfold int_of_long, to_signed, int_bits. rewrite H. reflexivity.
Qed.

(** The value of the local variable [n] that reaches [Val_int] is never
    negative in the POSIX variant. *)
Lemma posix_n_after_test r :
  let n := int_of_long r in
  0 <= (if int_lt n 0 then 1 else n) <= INT_MAX.
Proof.
  cbn zeta. pose proof (int_of_long_is_int r) as Hn.
  apply is_int_bounds in Hn. unfold int_lt.
  destruct (Z.ltb_spec (int_of_long r) 0); unfold INT_MAX, int_bits in *;
    change (2 ^ (32 - 1)) with 2147483648 in *; lia.
Qed.

(** X1.  On a runtime with 64-bit values, whatever value of its C type
    the operating system reports, the count returned is not negative: it
    is at most [INT_MAX] in the POSIX variant and at most [2 ^ 32 - 1] in
    the Windows one. *)
Theorem logical_cpu_count_range_64 d m w r :
  intnat_bits m = 64 ->
  os_reported os d w = Some r ->
  reportable d m r = true ->
  0 <= logical_cpu_count os d m w <=
    (if OCAML_B00_DARWIN d || OCAML_B00_POSIX d then INT_MAX
     else 2 ^ DWORD_bits - 1).
Proof.
  intros Hm Hr Hrep. unfold os_reported, reportable, logical_cpu_count in *.
  assert (H64 : forall x, 0 <= x < 2 ^ 32 ->
                          Long_val (Val_int m x) = x).
  { intros x Hx. apply Long_val_Val_int.
    change (2 ^ 32) with 4294967296 in Hx.
    destruct m; try discriminate Hm; ranges;
      apply andb_true_iff; split; apply Z.leb_le; lia. }
  destruct (variant_cases d) as [(Hp & _) | [(Hp & Hw & _) | (Hu & _)]].
  - rewrite Hp in *. rewrite (returned_posix os d m w Hp).
    pose proof (posix_n_after_test
                  (fst (os _ (sysconf _SC_NPROCESSORS_ONLN) w))) as Hn.
    cbn zeta in *. rewrite H64; [exact Hn |].
    unfold INT_MAX, int_bits in Hn.
    change (2 ^ (32 - 1)) with 2147483648 in Hn.
    change (2 ^ 32) with 4294967296. lia.
  - rewrite Hp, Hw in *. injection Hr as Hr.
    rewrite (returned_windows os d m w Hp Hw), Hr. cbn zeta.
    rewrite (DWORD_lt_int_0 r Hrep). rewrite H64; ranges; lia.
  - unfold supported in Hu.
    destruct (OCAML_B00_DARWIN d || OCAML_B00_POSIX d);
      destruct (OCAML_B00_WINDOWS d); discriminate.
Qed.

(** X2.  On a supported platform, a count [N >= 0] of the C type of the
    query's result is returned exactly if and only if it is a value of
    the C type of the local variable [n] and is at most [Max_long]. *)
Theorem count_returned_exactly_iff d m w N :
  supported d = true ->
  os_reported os d w = Some N ->
  0 <= N ->
  reportable d m N = true ->
  (logical_cpu_count os d m w = N <->
   fits_n d N = true /\ N <= Max_long m).
Proof.
  intros Hs Hr Hpos Hrep. split.
  - intros Heq. exact (positive_exact_only_if os d m w N Hs Hr Hpos Hrep Heq).
  - intros [Hf Hmax]. rewrite (count_of_report os d m w N Hs Hr Hf Hmax).
    destruct (Z.ltb_spec N 0); [lia | reflexivity].
Qed.

(** X3.  In the POSIX variant the value returned depends on the answer of
    [sysconf] through its low 32 bits only: two answers that agree modulo
    [2 ^ 32] give the same value. *)
Theorem posix_count_low_bits d m w1 w2 :
  OCAML_B00_DARWIN d || OCAML_B00_POSIX d = true ->
  fst (os _ (sysconf _SC_NPROCESSORS_ONLN) w1) mod 2 ^ 32 =
    fst (os _ (sysconf _SC_NPROCESSORS_ONLN) w2) mod 2 ^ 32 ->
  returned os d m w1 = returned os d m w2 /\
  logical_cpu_count os d m w1 = logical_cpu_count os d m w2.
Proof.
  intros Hd Hr. unfold logical_cpu_count.
  rewrite !(returned_posix os d m _ Hd). cbn zeta.
  rewrite (int_of_long_low_bits _ _ Hr). auto.
Qed.

(** X4.  The build warns exactly when the platform is not supported, and
    that is exactly when the primitive makes no call of the operating
    system: a build without warning makes exactly one. *)
Theorem warning_iff_no_query d m w :
  (warnings (b00_stubs_cpu d) = [Unsupported.warning] <->
   supported d = false) /\
  (warnings (b00_stubs_cpu d) = [] <-> supported d = true) /\
  (calls os (ocaml_b00_cpu_logical_count d m (Val_unit m)) w = [] <->
   supported d = false) /\
  (supported d = true ->
   List.length (calls os (ocaml_b00_cpu_logical_count d m (Val_unit m)) w)
     = 1%nat).
Proof.
  assert (Hposix : calls os (Posix.ocaml_b00_cpu_logical_count m (Val_unit m)) w
                   = [a_call (sysconf _SC_NPROCESSORS_ONLN)]).
  { cbn. destruct (os Z _ w). reflexivity. }
  assert (Hwin : calls os (Windows.ocaml_b00_cpu_logical_count m (Val_unit m)) w
                 = [a_call GetSystemInfo]).
  { cbn. destruct (os SYSTEM_INFO _ w). reflexivity. }
  destruct (variant_cases d)
    as [(Hp & H & Hwarn) | [(Hp & Hw & H & Hwarn) | (Hu & H & Hwarn)]];
    rewrite H, Hwarn, ?Hposix, ?Hwin.
  - assert (Hs : supported d = true) by (unfold supported; rewrite Hp; auto).
    rewrite Hs. repeat split; intros; try discriminate; reflexivity.
  - assert (Hs : supported d = true)
      by (unfold supported; rewrite Hw; apply orb_true_r).
    rewrite Hs. repeat split; intros; try discriminate; reflexivity.
  - rewrite Hu. repeat split; intros; try discriminate; reflexivity.
Qed.

(** X5.  On a runtime with 32-bit values, a reported count of the C type
    of [n] that lies between [2 ^ 30] and [2 ^ 31 - 1] comes back
    negative: the primitive returns the count minus [2 ^ 31]. *)
Theorem logical_cpu_count_wraps_32 d m w r :
  intnat_bits m = 32 ->
  supported d = true ->
  os_reported os d w = Some r ->
  fits_n d r = true ->
  2 ^ 30 <= r < 2 ^ 31 ->
  logical_cpu_count os d m w = r - 2 ^ 31 /\
  logical_cpu_count os d m w < 0.
Proof.
  intros Hm Hs Hr Hf Hrange. unfold logical_cpu_count.
  rewrite (returned_of_report os d m w r Hs Hr Hf).
  change (2 ^ 30) with 1073741824 in *.
  change (2 ^ 31) with 2147483648 in *.
  destruct (Z.ltb_spec r 0); [lia |].
  unfold Val_int. rewrite Long_val_Val_long, Hm.
  unfold to_signed. change (2 ^ (32 - 1 - 1)) with 1073741824.
  change (2 ^ (32 - 1)) with 2147483648.
  rewrite Z.mod_small by lia.
  destruct (Z.ltb_spec r 1073741824); lia.
Qed.

End Further.

Lemma logical_cpu_count_range_64_witness :
  intnat_bits LP64 = 64 /\
  os_reported machine_os posix_build (machine_with (-7)) = Some (-7) /\
  reportable posix_build LP64 (-7) = true /\
  0 <= logical_cpu_count machine_os posix_build LP64 (machine_with (-7))
    <= INT_MAX.
Proof.
  split; [evaluate |]. split; [evaluate |]. split; [evaluate |].
  apply (logical_cpu_count_range_64 machine_os posix_build LP64
           (machine_with (-7)) (-7)); evaluate.
Defined.

Lemma count_returned_exactly_iff_witness :
  supported posix_build = true /\
  os_reported machine_os posix_build (machine_with 2147483648)
    = Some 2147483648 /\
  0 <= 2147483648 /\
  reportable posix_build LP64 2147483648 = true /\
  (logical_cpu_count machine_os posix_build LP64 (machine_with 2147483648)
     = 2147483648 <->
   fits_n posix_build 2147483648 = true /\ 2147483648 <= Max_long LP64).
Proof.
  split; [evaluate |]. split; [evaluate |]. split; [evaluate |].
  split; [evaluate |].
  apply (count_returned_exactly_iff machine_os posix_build LP64
           (machine_with 2147483648) 2147483648); evaluate.
Defined.

Lemma posix_count_low_bits_witness :
  OCAML_B00_DARWIN darwin_build || OCAML_B00_POSIX darwin_build = true /\
  fst (machine_os _ (sysconf _SC_NPROCESSORS_ONLN) (machine_with 8))
    mod 2 ^ 32 =
  fst (machine_os _ (sysconf _SC_NPROCESSORS_ONLN) (machine_with 4294967304))
    mod 2 ^ 32 /\
  logical_cpu_count machine_os darwin_build LP64 (machine_with 8) =
    logical_cpu_count machine_os darwin_build LP64 (machine_with 4294967304).
Proof.
  split; [evaluate |]. split; [evaluate |].
  apply (posix_count_low_bits machine_os darwin_build LP64
           (machine_with 8) (machine_with 4294967304)); evaluate.
Defined.

Lemma logical_cpu_count_wraps_32_witness :
  intnat_bits ILP32 = 32 /\
  supported windows_build = true /\
  os_reported machine_os windows_build (machine_with 1073741824)
    = Some 1073741824 /\
  fits_n windows_build 1073741824 = true /\
  2 ^ 30 <= 1073741824 < 2 ^ 31 /\
  logical_cpu_count machine_os windows_build ILP32 (machine_with 1073741824)
    < 0.
Proof.
  split; [evaluate |]. split; [evaluate |]. split; [evaluate |].
  split; [evaluate |]. split; [split; evaluate |].
  apply (logical_cpu_count_wraps_32 machine_os windows_build ILP32
           (machine_with 1073741824) 1073741824);
    first [evaluate | split; evaluate].
Defined.

Lemma warning_iff_no_query_witness :
  supported windows_build = true /\
  warnings (b00_stubs_cpu windows_build) = [] /\
  List.length
    (calls machine_os
       (ocaml_b00_cpu_logical_count windows_build LLP64 (Val_unit LLP64))
       (machine_with 4)) = 1%nat.
Proof.
  split; [evaluate |]. split.
  - apply (proj1 (proj2 (warning_iff_no_query machine_os windows_build LLP64
                           (machine_with 4)))).
    evaluate.
  - apply (proj2 (proj2 (proj2 (warning_iff_no_query machine_os windows_build
                                  LLP64 (machine_with 4))))).
    evaluate.
Defined.
